(** * librarydata.py: fetch, clean, store and plot book metadata

    A shallow embedding of [src/librarydata.py] and the properties its
    specification states.  The program is a linear pipeline

      BookFetcher.extract_books  ->  BookCleaner.clean_data
        ->  save_data_into_csv / save_data_into_json
        ->  BookDatabase.dataframe_to_db / query
        ->  BookVisualizer.plot_publish_year_count

    Every step is a thin wrapper around a library call (requests, pandas,
    SQLAlchemy, seaborn).  The Python code itself is embedded statement by
    statement; the library calls it makes are modelled in the part of their
    behaviour the program depends on, each such model saying in its comment
    what it covers. *)

From Stdlib Require Import ZArith String Ascii List Bool Lia Permutation.
From Stdlib Require Import Floats.SpecFloat DecimalString.
From stdpp Require Import base option list gmap strings.

Local Open Scope string_scope.
#[local] Set Warnings "-register-all".

(** ** Python values

    What [response.json()] can return: the decoded JSON data model.  A Python
    [dict] keeps its keys in insertion order, and pandas reads column order
    from it, so a dict is an association list (looked up from the front); a
    [float] is its IEEE-754 decoding; a [str] is a [string]. *)

Inductive pyval : Type :=
| PNone
| PBool (b : bool)
| PInt (z : Z)
| PFloat (f : spec_float)
| PStr (s : string)
| PList (l : list pyval)
| PDict (d : list (string * pyval)).

Abbreviation pydict := (list (string * pyval)).

Definition NaN : pyval := PFloat S754_nan.

(** [type(o).__name__], as Python's error messages print it. *)
Definition type_name (o : pyval) : string :=
  match o with
  | PNone => "NoneType"
  | PBool _ => "bool"
  | PInt _ => "int"
  | PFloat _ => "float"
  | PStr _ => "str"
  | PList _ => "list"
  | PDict _ => "dict"
  end.

Definition str_of_Z (z : Z) : string := NilZero.string_of_int (Z.to_int z).

(** ** Exceptions

    The classes the program and its libraries raise, with the ancestors each
    has ([mro], the class itself first).  [requests.exceptions.JSONDecodeError]
    inherits from both [InvalidJSONError] and the builtin [ValueError]. *)

Inductive exn_class : Type :=
| BaseException | Exception | KeyboardInterrupt | SystemExit
| ValueError | TypeError | AttributeError
| OSError | FileNotFoundError | FileExistsError | IsADirectoryError
| RequestException | RequestsConnectionError | HTTPError | Timeout
| InvalidJSONError | RequestsJSONDecodeError
| SQLAlchemyError | ArgumentError | NoSuchModuleError | OperationalError
| EmptyDataError | ParserError.

Global Instance exn_class_eq_dec : EqDecision exn_class.
Proof. solve_decision. Defined.

Definition mro (c : exn_class) : list exn_class :=
  c ::
  match c with
  | BaseException => []
  | Exception | KeyboardInterrupt | SystemExit => [BaseException]
  | ValueError | TypeError | AttributeError | OSError | SQLAlchemyError =>
      [Exception; BaseException]
  | FileNotFoundError | FileExistsError | IsADirectoryError =>
      [OSError; Exception; BaseException]
  | RequestException => [OSError; Exception; BaseException]
  | RequestsConnectionError | HTTPError | Timeout | InvalidJSONError =>
      [RequestException; OSError; Exception; BaseException]
  | RequestsJSONDecodeError =>
      [InvalidJSONError; RequestException; OSError; ValueError; Exception;
       BaseException]
  | ArgumentError | OperationalError =>
      [SQLAlchemyError; Exception; BaseException]
  | NoSuchModuleError =>
      [ArgumentError; SQLAlchemyError; Exception; BaseException]
  | EmptyDataError | ParserError => [ValueError; Exception; BaseException]
  end.

Record exn : Type := Exn { exn_type : exn_class; exn_msg : string }.

Global Instance exn_eq_dec : EqDecision exn.
Proof. solve_decision. Defined.

(** [isinstance(e, c)] *)
Definition isinstance (e : exn) (c : exn_class) : bool :=
  bool_decide (c ∈ mro (exn_type e)).

(** ** Results and the state monad of the program

    A computation either returns or raises.  A stateful computation runs on a
    state [S] (an object's fields, the outside world, or both) and keeps every
    change it made before an exception left it, as Python does. *)

Inductive result (A : Type) : Type :=
| Return (a : A)
| Raise (e : exn).
Arguments Return {A} a.
Arguments Raise {A} e.

Global Instance result_eq_dec {A} `{EqDecision A} : EqDecision (result A).
Proof. solve_decision. Defined.

Global Instance result_ret : MRet result := fun A a => Return a.
Global Instance result_bind : MBind result := fun A B f m =>
  match m with
  | Return a => f a
  | Raise e => Raise e
  end.
Global Instance result_fmap : FMap result := fun A B f m =>
  match m with
  | Return a => Return (f a)
  | Raise e => Raise e
  end.

Definition raise {A} (c : exn_class) (msg : string) : result A :=
  Raise (Exn c msg).

(** [list(map(f, l))] for an [f] that may raise: stops at the first raise. *)
Fixpoint mapR {A B} (f : A -> result B) (l : list A) : result (list B) :=
  match l with
  | [] => Return []
  | x :: l' => y ← f x; ys ← mapR f l'; Return (y :: ys)
  end.

(** ** Operations on values *)

Fixpoint assoc {V} (k : string) (d : list (string * V)) : option V :=
  match d with
  | [] => None
  | (k', v) :: d' => if String.eqb k k' then Some v else assoc k d'
  end.

(** [o.get(key, default)]: only a dict has the method. *)
Definition py_get (o : pyval) (key : string) (dflt : pyval) : result pyval :=
  match o with
  | PDict d => Return (default dflt (assoc key d))
  | _ => raise AttributeError
           ("'" +:+ type_name o +:+ "' object has no attribute 'get'")
  end.

Definition chars (s : string) : list string :=
  map (fun c => String c EmptyString) (list_ascii_of_string s).

(** [iter(o)]: a list yields its items, a str its characters, a dict its
    keys; nothing else is iterable. *)
Definition py_iter (o : pyval) : result (list pyval) :=
  match o with
  | PList l => Return l
  | PStr s => Return (map PStr (chars s))
  | PDict d => Return (map (fun kv => PStr (fst kv)) d)
  | _ => raise TypeError ("'" +:+ type_name o +:+ "' object is not iterable")
  end.

(** The check [str.join] makes on item number [i]. *)
Definition expect_str (i : nat) (o : pyval) : result string :=
  match o with
  | PStr s => Return s
  | _ => raise TypeError
           ("sequence item " +:+ str_of_Z (Z.of_nat i) +:+
            ": expected str instance, " +:+ type_name o +:+ " found")
  end.

Fixpoint expect_strs (i : nat) (l : list pyval) : result (list string) :=
  match l with
  | [] => Return []
  | o :: l' => s ← expect_str i o; ss ← expect_strs (S i) l'; Return (s :: ss)
  end.

(** [sep.join(o)] *)
Definition str_join (sep : string) (o : pyval) : result string :=
  match py_iter o with
  | Return items => ss ← expect_strs 0 items; Return (String.concat sep ss)
  | Raise _ => raise TypeError "can only join an iterable"
  end.

(** ** Tabular structure

    A [pandas.DataFrame] in the part the program uses: the ordered column
    names and, per row, one cell per column.  A cell holds the Python value the
    row supplied; numpy's choice of a storage type per column is not part of
    the model. *)

Record DataFrame : Type := mkDataFrame {
  columns : list string;
  rows : list (list pyval)
}.

Definition keys (d : pydict) : list string := map fst d.

(** Column names in order of first appearance. *)
Fixpoint add_keys (acc ks : list string) : list string :=
  match ks with
  | [] => acc
  | k :: ks' =>
      add_keys (if existsb (String.eqb k) acc then acc else acc ++ [k]) ks'
  end.

Definition union_keys (records : list pydict) : list string :=
  fold_left (fun acc d => add_keys acc (keys d)) records [].

(** [pd.DataFrame(records)] for a list of dicts: the columns are the keys in
    order of first appearance, a row has its dict's value under each column
    and NaN where the dict lacks the key; no record, no column. *)
Definition pd_DataFrame (records : list pydict) : DataFrame :=
  let cols := union_keys records in
  {| columns := cols;
     rows := map (fun d => map (fun c => default NaN (assoc c d)) cols) records |}.

Fixpoint index_of (name : string) (cols : list string) : option nat :=
  match cols with
  | [] => None
  | c :: cols' =>
      if String.eqb name c then Some 0%nat else S <$> index_of name cols'
  end.

(** [df[name]], when the column exists. *)
Definition column (df : DataFrame) (name : string) : option (list pyval) :=
  i ← index_of name (columns df);
  Some (map (fun r => nth i r NaN) (rows df)).


(** [df.head()]: the first five rows. *)
Definition head (df : DataFrame) : DataFrame :=
  {| columns := columns df; rows := take 5 (rows df) |}.

(** ** The world outside the program *)

(** A chart as matplotlib holds it before it is saved. *)
Record Figure : Type := mkFigure {
  figsize : Z * Z;
  bars : list (pyval * nat);       (* category and bar height, left to right *)
  palette : string;
  fig_title : string;
  fig_xlabel : string;
  fig_ylabel : string;
  xticks_rotation : Z;
  grid : option (string * string * Z)   (* axis, line style, alpha in percent *)
}.

Definition blank_figure (size : Z * Z) : Figure :=
  {| figsize := size; bars := []; palette := ""; fig_title := "";
     fig_xlabel := ""; fig_ylabel := ""; xticks_rotation := 0; grid := None |}.

(** What a written file holds: CSV as its text; a JSON file as the records it
    encodes and an image as the figure it shows. *)
Inductive file : Type :=
| TextFile (text : string)
| JsonFile (records : list pydict)
| ImageFile (fig : Figure).

(** An HTTP response: [json_body] is what [response.json()] does with the
    body, the decoded value or the decoder's exception. *)
Record response : Type := mkResponse {
  status_code : Z;
  reason : string;
  url : string;
  json_body : result pyval
}.

(** What one run of the program can observe and change. *)
Record world : Type := mkWorld {
  stdout : list (string + DataFrame);   (* what was printed, oldest first *)
  environ : gmap string string;         (* os.environ, after load_dotenv() *)
  files : gmap string file;
  dirs : gset string;                   (* directories under the working one *)
  http : string -> result response;     (* what a GET of a URL meets *)
  drivers : gset string;                (* driver names SQLAlchemy can load *)
  db_up : bool;                         (* the database answers *)
  tables : gmap string DataFrame;
  sql : string -> gmap string DataFrame ->
        result DataFrame * gmap string DataFrame;   (* the database's SQL *)
  pyplot : option Figure                (* matplotlib's current figure *)
}.

Definition set_stdout (w : world) (v : list (string + DataFrame)) : world :=
  mkWorld v (environ w) (files w) (dirs w) (http w) (drivers w) (db_up w)
          (tables w) (sql w) (pyplot w).
Definition set_files (w : world) (v : gmap string file) : world :=
  mkWorld (stdout w) (environ w) v (dirs w) (http w) (drivers w) (db_up w)
          (tables w) (sql w) (pyplot w).
Definition set_dirs (w : world) (v : gset string) : world :=
  mkWorld (stdout w) (environ w) (files w) v (http w) (drivers w) (db_up w)
          (tables w) (sql w) (pyplot w).
Definition set_tables (w : world) (v : gmap string DataFrame) : world :=
  mkWorld (stdout w) (environ w) (files w) (dirs w) (http w) (drivers w)
          (db_up w) v (sql w) (pyplot w).
Definition set_pyplot (w : world) (v : option Figure) : world :=
  mkWorld (stdout w) (environ w) (files w) (dirs w) (http w) (drivers w)
          (db_up w) (tables w) (sql w) v.

(** ** Stateful computations *)

Definition M (S A : Type) : Type := S -> result A * S.

Global Instance M_ret {S} : MRet (M S) := fun A a s => (Return a, s).
Global Instance M_bind {S} : MBind (M S) := fun A B f m s =>
  match m s with
  | (Return a, s') => f a s'
  | (Raise e, s') => (Raise e, s')
  end.

(** A pure computation inside a stateful one. *)
Definition pure {S A} (r : result A) : M S A := fun s => (r, s).

(** [try: body except c as e: handler(e)] *)
Definition try_except {S A} (body : M S A) (c : exn_class)
    (handler : exn -> M S A) : M S A := fun s =>
  match body s with
  | (Raise e, s') => if isinstance e c then handler e s' else (Raise e, s')
  | returned => returned
  end.

(** A method runs on its object and the world. *)
Definition Method (O A : Type) : Type := M (O * world) A.

Definition self {O} : Method O O := fun s => (Return (fst s), s).
Definition set_self {O} (o : O) : Method O unit := fun s => (Return tt, (o, snd s)).

(** A computation on the world alone, run from inside a method. *)
Definition io {O A} (m : M world A) : Method O A := fun s =>
  let (r, w') := m (snd s) in (r, (fst s, w')).

(** [print(x)] *)
Definition print (x : string + DataFrame) : M world unit := fun w =>
  (Return tt, set_stdout w (stdout w ++ [x])).

(** [str(e)] *)
Definition str_exn (e : exn) : string := exn_msg e.

(** ** Library calls: the operating system *)

Definition slash : ascii := "/"%char.

Fixpoint has_slash (p : string) : bool :=
  match p with
  | EmptyString => false
  | String c rest => Ascii.eqb c slash || has_slash rest
  end.

Fixpoint all_slashes (p : string) : bool :=
  match p with
  | EmptyString => true
  | String c rest => Ascii.eqb c slash && all_slashes rest
  end.

(** The path up to and including its last slash. *)
Fixpoint path_head (p : string) : string :=
  match p with
  | EmptyString => EmptyString
  | String c rest =>
      if has_slash rest then String c (path_head rest)
      else if Ascii.eqb c slash then String c EmptyString
      else EmptyString
  end.

Fixpoint rstrip_slashes (p : string) : string :=
  match p with
  | EmptyString => EmptyString
  | String c rest =>
      if all_slashes rest then
        (if Ascii.eqb c slash then EmptyString else String c EmptyString)
      else String c (rstrip_slashes rest)
  end.

(** [os.path.dirname(p)] *)
Definition dirname (p : string) : string :=
  let h := path_head p in
  if all_slashes h then h else rstrip_slashes h.

(** [os.path.join(a, b)] for a relative [b]. *)
Definition os_path_join (a b : string) : string :=
  if String.eqb a "" then b else a +:+ "/" +:+ b.

(** The working directory (the empty name) always exists. *)
Definition dir_exists (w : world) (d : string) : bool :=
  String.eqb d "" || bool_decide (d ∈ dirs w).

(** The directory and the ones above it, nearest first. *)
Fixpoint ancestors (fuel : nat) (d : string) : list string :=
  match fuel with
  | O => []
  | S fuel' => if String.eqb d "" then [] else d :: ancestors fuel' (dirname d)
  end.

(** [os.makedirs(d, exist_ok=True)] *)
Definition os_makedirs (d : string) : M world unit := fun w =>
  if String.eqb d "" then
    (raise FileNotFoundError "[Errno 2] No such file or directory: ''", w)
  else if bool_decide (is_Some (files w !! d)) then
    (raise FileExistsError ("[Errno 17] File exists: '" +:+ d +:+ "'"), w)
  else
    (Return tt, set_dirs w (list_to_set (ancestors (String.length d) d) ∪ dirs w)).

(** Opening [path] for writing and storing [f] in it: the directory part must
    exist and the name must not be a directory's.  Names are taken as written
    (no normalisation of [.] and [..]). *)
Definition write_file (path : string) (f : file) : M world unit := fun w =>
  if bool_decide (path ∈ dirs w) then
    (raise IsADirectoryError ("[Errno 21] Is a directory: '" +:+ path +:+ "'"), w)
  else if String.eqb path "" || negb (dir_exists w (dirname path)) then
    (raise FileNotFoundError
       ("[Errno 2] No such file or directory: '" +:+ path +:+ "'"), w)
  else (Return tt, set_files w (<[path := f]> (files w))).

(** Whether [write_file] can store a file under the name. *)
Definition writable (w : world) (path : string) : bool :=
  negb (bool_decide (path ∈ dirs w)) && negb (String.eqb path "") &&
  dir_exists w (dirname path).

(** [os.getenv(name)] *)
Definition os_getenv (name : string) : M world (option string) := fun w =>
  (Return (environ w !! name), w).

(** ** Library calls: requests *)

(** [requests.get(url)] *)
Definition requests_get (u : string) : M world response := fun w => (http w u, w).

(** [response.raise_for_status()] *)
Definition raise_for_status (r : response) : result unit :=
  let code := status_code r in
  if (400 <=? code)%Z && (code <? 500)%Z then
    raise HTTPError (str_of_Z code +:+ " Client Error: " +:+ reason r +:+
                     " for url: " +:+ url r)
  else if (500 <=? code)%Z && (code <? 600)%Z then
    raise HTTPError (str_of_Z code +:+ " Server Error: " +:+ reason r +:+
                     " for url: " +:+ url r)
  else Return tt.

(** [response.json()] *)
Definition response_json (r : response) : result pyval := json_body r.

(** ** BookFetcher *)

Record BookFetcher : Type := mkBookFetcher { api_url : string }.

Definition BookFetcher_init (API_URL : string) : BookFetcher :=
  {| api_url := API_URL |}.

Definition extract_books : Method BookFetcher pyval :=
  try_except
    (this ← self;
     response ← io (requests_get (api_url this));
     pure (raise_for_status response);;
     data ← pure (response_json response);
     pure (py_get data "docs" (PList [])))
    RequestException
    (fun e =>
       io (print (inl ("Error fetching books: " +:+ str_exn e)));;
       mret (PList [])).

(** ** BookCleaner *)

Record BookCleaner : Type := mkBookCleaner {
  data : pyval;
  cleaned_data : option DataFrame
}.

Definition BookCleaner_init (list_of_json_data : pyval) : BookCleaner :=
  {| data := list_of_json_data; cleaned_data := None |}.

(** The body of the loop of [clean_data]: the dict literal, its entries
    evaluated in order. *)
Definition flatten_item (item : pyval) : result pydict :=
  title ← py_get item "title" (PStr "");
  authors ← py_get item "author_name" (PList []);
  author_name ← str_join ", " authors;
  first_publish_year ← py_get item "first_publish_year" (PStr "");
  ratings ← py_get item "ratings_sortable" (PStr "");
  Return [("title", title);
          ("author_name", PStr author_name);
          ("first_publish_year", first_publish_year);
          ("ratings", ratings)].

Definition clean_data : Method BookCleaner DataFrame :=
  this ← self;
  items ← pure (py_iter (data this));
  cleaned_data ← pure (mapR flatten_item items);
  let df := pd_DataFrame cleaned_data in
  set_self {| data := data this; cleaned_data := Some df |};;
  mret df.

(** Reaching for method [name] of an attribute that may still be [None]. *)
Definition attr_of {A} (o : option A) (name : string) : result A :=
  match o with
  | Some a => Return a
  | None => raise AttributeError
              ("'NoneType' object has no attribute '" +:+ name +:+ "'")
  end.

(** [df.to_json(filename, orient="records")]: one object per row. *)
Definition to_json_records (df : DataFrame) : list pydict :=
  map (zip (columns df)) (rows df).

Definition save_data_into_json (filename : string) : Method BookCleaner unit :=
  this ← self;
  df ← pure (attr_of (cleaned_data this) "to_json");
  io (write_file filename (JsonFile (to_json_records df)));;
  io (print (inl ("Data saved to " +:+ filename))).

(** ** Library calls: CSV text

    The dialect pandas uses by default: comma, double quote, quotes doubled
    inside a quoted field, minimal quoting, and the POSIX line terminator. *)

Definition comma : ascii := ","%char.
Definition dquote : ascii := "034"%char.
Definition LF : ascii := "010"%char.
Definition CR : ascii := "013"%char.

Definition lineterminator : string := String LF EmptyString.

Fixpoint str_mem (c : ascii) (s : string) : bool :=
  match s with
  | EmptyString => false
  | String c' rest => Ascii.eqb c c' || str_mem c rest
  end.

(** The writer of Python's csv module under QUOTE_MINIMAL: a field is quoted
    when it holds the delimiter, the quote character or a character of the
    line terminator.  (CPython 3.13 and later quote a carriage return as
    well; the round trip below is stated for cells without one, on which the
    versions agree.) *)
Definition is_special (c : ascii) : bool :=
  Ascii.eqb c comma || Ascii.eqb c dquote || str_mem c lineterminator.

Fixpoint needs_quotes (s : string) : bool :=
  match s with
  | EmptyString => false
  | String c rest => is_special c || needs_quotes rest
  end.

Fixpoint double_quotes (s : string) : string :=
  match s with
  | EmptyString => EmptyString
  | String c rest =>
      if Ascii.eqb c dquote then String dquote (String dquote (double_quotes rest))
      else String c (double_quotes rest)
  end.

Definition quoted (s : string) : string :=
  String dquote (double_quotes s +:+ String dquote EmptyString).

Definition csv_field (s : string) : string :=
  if needs_quotes s then quoted s else s.

Fixpoint csv_fields (fields : list string) : string :=
  match fields with
  | [] => EmptyString
  | [f] => csv_field f
  | f :: fs => csv_field f +:+ String comma (csv_fields fs)
  end.

(** [writer.writerow(fields)]: a row whose only field is empty is written as
    an empty quoted field, so that it is not a blank line. *)
Definition csv_row (fields : list string) : string :=
  match fields with
  | [EmptyString] => quoted EmptyString
  | _ => csv_fields fields
  end +:+ lineterminator.

Fixpoint csv_rows (table : list (list string)) : string :=
  match table with
  | [] => EmptyString
  | r :: table' => csv_row r +:+ csv_rows table'
  end.

(** The tokenizer of [pandas.read_csv] (its C parser's state machine, for the
    default dialect): fields end at a comma, records at LF, CR or CR LF; a
    field that starts with a quote runs to the closing quote, a doubled quote
    standing for one; blank lines are skipped. *)
Inductive tstate : Type :=
| START_RECORD | START_FIELD | IN_FIELD
| IN_QUOTED_FIELD | QUOTE_IN_QUOTED_FIELD
| EAT_CRNL | EAT_CRNL_NOP.

Record parser : Type := mkParser {
  pstate : tstate;
  pfield : string;                 (* the field being read *)
  pline : list string;             (* the fields of the record being read *)
  plines : list (list string)      (* the records read *)
}.

Definition snoc (s : string) (c : ascii) : string := s +:+ String c EmptyString.

Definition push_char (p : parser) (c : ascii) (st : tstate) : parser :=
  mkParser st (snoc (pfield p) c) (pline p) (plines p).

Definition end_field (p : parser) (st : tstate) : parser :=
  mkParser st EmptyString (pline p ++ [pfield p]) (plines p).

Definition end_line (p : parser) : parser :=
  mkParser START_RECORD EmptyString [] (plines p ++ [pline p]).

Definition goto (p : parser) (st : tstate) : parser :=
  mkParser st (pfield p) (pline p) (plines p).

(** A character met at the start of a field. *)
Definition start_field (p : parser) (c : ascii) : parser :=
  if Ascii.eqb c LF then end_line (end_field p START_RECORD)
  else if Ascii.eqb c CR then end_field p EAT_CRNL
  else if Ascii.eqb c dquote then goto p IN_QUOTED_FIELD
  else if Ascii.eqb c comma then end_field p START_FIELD
  else push_char p c IN_FIELD.

(** A character met at the start of a record. *)
Definition start_record (p : parser) (c : ascii) : parser :=
  if Ascii.eqb c LF then goto p START_RECORD          (* a blank line *)
  else if Ascii.eqb c CR then goto p EAT_CRNL_NOP
  else start_field p c.

Definition step (p : parser) (c : ascii) : parser :=
  match pstate p with
  | START_RECORD => start_record p c
  | START_FIELD => start_field p c
  | IN_FIELD =>
      if Ascii.eqb c LF then end_line (end_field p START_RECORD)
      else if Ascii.eqb c CR then end_field p EAT_CRNL
      else if Ascii.eqb c comma then end_field p START_FIELD
      else push_char p c IN_FIELD
  | IN_QUOTED_FIELD =>
      if Ascii.eqb c dquote then goto p QUOTE_IN_QUOTED_FIELD
      else push_char p c IN_QUOTED_FIELD
  | QUOTE_IN_QUOTED_FIELD =>
      if Ascii.eqb c dquote then push_char p c IN_QUOTED_FIELD
      else if Ascii.eqb c comma then end_field p START_FIELD
      else if Ascii.eqb c LF then end_line (end_field p START_RECORD)
      else if Ascii.eqb c CR then end_field p EAT_CRNL
      else push_char p c IN_FIELD
  | EAT_CRNL =>
      if Ascii.eqb c LF then end_line p else start_record (end_line p) c
  | EAT_CRNL_NOP =>
      if Ascii.eqb c LF then goto p START_RECORD
      else start_record (goto p START_RECORD) c
  end.

Fixpoint run (p : parser) (input : string) : parser :=
  match input with
  | EmptyString => p
  | String c rest => run (step p c) rest
  end.

(** What the tokenizer does when the input ends. *)
Definition at_eof (p : parser) : result (list (list string)) :=
  match pstate p with
  | START_RECORD | EAT_CRNL_NOP => Return (plines p)
  | IN_QUOTED_FIELD =>
      raise ParserError "Error tokenizing data. C error: EOF inside string"
  | START_FIELD | IN_FIELD | QUOTE_IN_QUOTED_FIELD =>
      Return (plines (end_line (end_field p START_RECORD)))
  | EAT_CRNL => Return (plines (end_line p))
  end.

(** The tokenizer between two records, [ls] being the records read. *)
Definition between_records (ls : list (list string)) : parser :=
  mkParser START_RECORD EmptyString [] ls.

Definition tokenize (text : string) : result (list (list string)) :=
  at_eof (run (between_records []) text).






(** ** Library calls: SQLAlchemy and pandas' SQL *)

Record Engine : Type := mkEngine { engine_url : string }.

(** A character of a driver name: [\w] or [+] (ASCII names). *)
Definition is_name_char (c : ascii) : bool :=
  let n := nat_of_ascii c in
  ((48 <=? n) && (n <=? 57) || (65 <=? n) && (n <=? 90) ||
   (97 <=? n) && (n <=? 122) || (n =? 95) || (n =? 43))%nat.

(** The driver name of a URL [name://...]: the longest run of name characters
    at its start, which must not be empty and must be followed by [://]. *)
Fixpoint drivername (u : string) : option string :=
  match u with
  | String c rest =>
      if is_name_char c then
        match drivername rest with
        | Some name => Some (String c name)
        | None => if String.prefix "://" rest then Some (String c EmptyString) else None
        end
      else None
  | EmptyString => None
  end.

(** [create_engine(url)]: parses the URL and loads its driver; it opens no
    connection yet. *)
Definition create_engine (u : string) : M world Engine := fun w =>
  match drivername u with
  | None =>
      (raise ArgumentError
         ("Could not parse SQLAlchemy URL from string '" +:+ u +:+ "'"), w)
  | Some name =>
      if bool_decide (name ∈ drivers w) then (Return {| engine_url := u |}, w)
      else (raise NoSuchModuleError
              ("Can't load plugin: sqlalchemy.dialects:" +:+ name), w)
  end.

Inductive if_exists_mode : Type := IfFail | IfReplace | IfAppend.

Definition unreachable {A} : result A :=
  raise OperationalError "could not connect to server".

(** [df.to_sql(name, engine, if_exists=mode, index=False)]: the table [name]
    is created from the frame; when it exists already, [fail] raises,
    [replace] drops it first and [append] adds the rows to it.  Returns the
    number of rows written. *)
Definition to_sql (df : DataFrame) (name : string) (eng : Engine)
    (mode : if_exists_mode) : M world nat := fun w =>
  if negb (db_up w) then (unreachable, w)
  else
    match tables w !! name, mode with
    | Some _, IfFail =>
        (raise ValueError ("Table '" +:+ name +:+ "' already exists."), w)
    | Some t, IfAppend =>
        if bool_decide (columns t = columns df) then
          (Return (length (rows df)),
           set_tables w (<[name := {| columns := columns t;
                                      rows := (rows t ++ rows df)%list |}]> (tables w)))
        else (raise OperationalError "table has no such column", w)
    | _, _ =>
        (Return (length (rows df)), set_tables w (<[name := df]> (tables w)))
    end.

(** [pd.read_sql(query, engine)]: whatever the database makes of the text. *)
Definition read_sql (query : string) (eng : Engine) : M world DataFrame := fun w =>
  if negb (db_up w) then (unreachable, w)
  else let (r, t') := sql w query (tables w) in (r, set_tables w t').

(** ** Library calls: seaborn and matplotlib *)

(** The key a value has in a hash table: numbers that compare equal (True, 1
    and 1.0) share one, written [m * 2^e] with [m] odd. *)
Inductive hkey : Type :=
| KNone
| KNaN
| KInf (negative : bool)
| KNum (m e : Z)
| KStr (s : string).

Global Instance hkey_eq_dec : EqDecision hkey.
Proof. solve_decision. Defined.

Fixpoint odd_part (p : positive) (e : Z) : positive * Z :=
  match p with
  | xO q => odd_part q (e + 1)
  | _ => (p, e)
  end.

Definition dyadic (negative : bool) (m : positive) (e : Z) : hkey :=
  let (m', e') := odd_part m e in
  KNum (if negative then Zneg m' else Zpos m') e'.

Definition key_of_Z (z : Z) : hkey :=
  match z with
  | Z0 => KNum 0 0
  | Zpos p => dyadic false p 0
  | Zneg p => dyadic true p 0
  end.

(** [hash(v)] with [==]: lists and dicts are unhashable. *)
Definition hash_key (v : pyval) : result hkey :=
  match v with
  | PNone => Return KNone
  | PBool b => Return (key_of_Z (if b then 1 else 0))
  | PInt z => Return (key_of_Z z)
  | PFloat S754_nan => Return KNaN
  | PFloat (S754_infinity s) => Return (KInf s)
  | PFloat (S754_zero _) => Return (KNum 0 0)
  | PFloat (S754_finite s m e) => Return (dyadic s m e)
  | PStr s => Return (KStr s)
  | PList _ | PDict _ =>
      raise TypeError ("unhashable type: '" +:+ type_name v +:+ "'")
  end.


(** [pd.isnull] on a key. *)
Definition key_null (k : hkey) : bool :=
  match k with
  | KNone | KNaN => true
  | _ => false
  end.

Definition key_number (k : hkey) : bool :=
  match k with
  | KNum _ _ | KInf _ | KNaN => true
  | _ => false
  end.

(** Numeric order, the missing values last (as [np.sort] leaves them). *)
Definition key_le (a b : hkey) : bool :=
  match a, b with
  | _, (KNone | KNaN) => true
  | (KNone | KNaN), _ => false
  | KInf true, _ => true
  | _, KInf false => true
  | KNum m1 e1, KNum m2 e2 =>
      let e := Z.min e1 e2 in
      (m1 * 2 ^ (e1 - e) <=? m2 * 2 ^ (e2 - e))%Z
  | _, _ => false
  end.

Definition keyed : Type := pyval * hkey.

(** [Series.unique()]: the first value of each key, in order of appearance. *)
Fixpoint unique (seen : list hkey) (l : list keyed) : list keyed :=
  match l with
  | [] => []
  | (v, k) :: l' =>
      if bool_decide (k ∈ seen) then unique seen l'
      else (v, k) :: unique (k :: seen) l'
  end.

Fixpoint insert_sorted (x : keyed) (l : list keyed) : list keyed :=
  match l with
  | [] => [x]
  | y :: l' =>
      if key_le (snd x) (snd y) then x :: y :: l' else y :: insert_sorted x l'
  end.

(** [np.sort] *)
Definition np_sort (l : list keyed) : list keyed :=
  fold_right insert_sorted [] l.

(** seaborn's [variable_type]: numeric when every value that is not missing
    is a number. *)
Definition variable_numeric (l : list keyed) : bool :=
  forallb (fun vk => key_null (snd vk) || key_number (snd vk)) l.

(** seaborn's [categorical_order]: the distinct values, sorted when the
    variable is numeric, the missing ones dropped. *)
Definition categorical_order (l : list keyed) : list keyed :=
  let order := unique [] l in
  let order := if variable_numeric l then np_sort order else order in
  filter (fun vk => negb (key_null (snd vk))) order.

Definition count_key (k : hkey) (l : list keyed) : nat :=
  length (filter (fun vk => bool_decide (snd vk = k)) l).

(** The bars of [sns.countplot(data=df, x=name)]: one per category, as high
    as the number of rows of that category.  Categories are told apart as
    Python values are; that recent seaborn versions then label them with
    their [str] makes no difference for integer years and the empty text. *)
Definition countplot_bars (df : DataFrame) (name : string)
  : result (list (pyval * nat)) :=
  match column df name with
  | None =>
      raise ValueError
        ("Could not interpret value `" +:+ name +:+
         "` for `x`. An entry with this name does not appear in `data`.")
  | Some values =>
      ks ← mapR hash_key values;
      let l := zip values ks in
      Return (map (fun vk => (fst vk, count_key (snd vk) l)) (categorical_order l))
  end.

(** A change to matplotlib's current figure (opened when there is none). *)
Definition on_figure (f : Figure -> Figure) : M world unit := fun w =>
  (Return tt, set_pyplot w (Some (f (default (blank_figure (640, 480)%Z) (pyplot w))))).

Definition plt_figure (size : Z * Z) : M world unit := fun w =>
  (Return tt, set_pyplot w (Some (blank_figure size))).

Definition sns_countplot (df : DataFrame) (x pal : string) : M world unit :=
  bs ← pure (countplot_bars df x);
  on_figure (fun f =>
    mkFigure (figsize f) bs pal (fig_title f) x "count"
             (xticks_rotation f) (grid f)).

Definition plt_title (s : string) : M world unit :=
  on_figure (fun f =>
    mkFigure (figsize f) (bars f) (palette f) s (fig_xlabel f) (fig_ylabel f)
             (xticks_rotation f) (grid f)).

Definition plt_xlabel (s : string) : M world unit :=
  on_figure (fun f =>
    mkFigure (figsize f) (bars f) (palette f) (fig_title f) s (fig_ylabel f)
             (xticks_rotation f) (grid f)).

Definition plt_ylabel (s : string) : M world unit :=
  on_figure (fun f =>
    mkFigure (figsize f) (bars f) (palette f) (fig_title f) (fig_xlabel f) s
             (xticks_rotation f) (grid f)).

Definition plt_xticks (rotation : Z) : M world unit :=
  on_figure (fun f =>
    mkFigure (figsize f) (bars f) (palette f) (fig_title f) (fig_xlabel f)
             (fig_ylabel f) rotation (grid f)).

Definition plt_grid (axis linestyle : string) (alpha : Z) : M world unit :=
  on_figure (fun f =>
    mkFigure (figsize f) (bars f) (palette f) (fig_title f) (fig_xlabel f)
             (fig_ylabel f) (xticks_rotation f) (Some (axis, linestyle, alpha))).

(** [plt.tight_layout()] moves the axes and leaves the content alone. *)
Definition plt_tight_layout : M world unit := on_figure (fun f => f).

Definition plt_savefig (path : string) : M world unit := fun w =>
  write_file path
    (ImageFile (default (blank_figure (640, 480)%Z) (pyplot w))) w.

Definition plt_close : M world unit := fun w => (Return tt, set_pyplot w None).

(** Running a method of object [o] from outside: the result and the object
    as the method left it. *)
Definition call {O A} (o : O) (m : Method O A) : M world (A * O) := fun w =>
  match m (o, w) with
  | (Return a, (o', w')) => (Return (a, o'), w')
  | (Raise e, (_, w')) => (Raise e, w')
  end.

(** ** The raw records of the specification

    A raw record is a mapping in which any key may be missing and whose
    [author_name], when present, is a list of strings. *)

Fixpoint strings_of (l : list pyval) : option (list string) :=
  match l with
  | [] => Some []
  | PStr s :: l' => cons s <$> strings_of l'
  | _ :: _ => None
  end.

(** The authors a record names: none when the key is missing. *)
Definition author_names (d : pydict) : option (list string) :=
  match assoc "author_name" d with
  | None => Some []
  | Some (PList l) => strings_of l
  | Some _ => None
  end.

Definition raw_record (item : pyval) : Prop :=
  exists d, item = PDict d /\ is_Some (author_names d).

Definition four_columns : list string :=
  ["title"; "author_name"; "first_publish_year"; "ratings"].

Definition has_four_keys (r : pydict) : Prop := keys r = four_columns.

(** The frame [pd.DataFrame([])]. *)
Definition empty_frame : DataFrame := {| columns := []; rows := [] |}.

(** The object and the world a method leaves behind. *)
Definition object_after {O A} (out : result A * (O * world)) : O := fst (snd out).
Definition world_after {O A} (out : result A * (O * world)) : world := snd (snd out).

(** Concrete inputs used further down. *)

Definition book_T1 : pyval :=
  PDict [("title", PStr "T1"); ("author_name", PList [PStr "X"]);
         ("first_publish_year", PInt 2001); ("ratings_sortable", PInt 5)].

Definition book_AB : pyval :=
  PDict [("title", PStr "T2"); ("author_name", PList [PStr "A"; PStr "B"])].

Definition ok_response (body : pyval) : response :=
  {| status_code := 200; reason := "OK"; url := "http://books"; json_body := Return body |}.

(** A world with nothing in it: no file, no variable, no network. *)
Definition empty_world : world :=
  {| stdout := []; environ := ∅; files := ∅; dirs := ∅;
     http := fun _ => raise RequestsConnectionError "Max retries exceeded";
     drivers := {["sqlite"]}; db_up := true; tables := ∅;
     sql := fun _ t => (Return empty_frame, t);
     pyplot := None |}.

Definition with_environ (w : world) (v : gmap string string) : world :=
  mkWorld (stdout w) v (files w) (dirs w) (http w) (drivers w) (db_up w)
          (tables w) (sql w) (pyplot w).


(** A world whose connection URL names a loadable driver. *)
Definition sqlite_world : world :=
  with_environ empty_world {["DB_CONN_URL" := "sqlite:///books.db"]}.

(** The two books, cleaned. *)
Definition two_books_frame : DataFrame :=
  pd_DataFrame
    [[("title", PStr "T1"); ("author_name", PStr "X");
      ("first_publish_year", PInt 2001); ("ratings", PInt 5)];
     [("title", PStr "T2"); ("author_name", PStr "A, B");
      ("first_publish_year", PStr ""); ("ratings", PStr "")]].

(** The cleaner after [clean_data] ran on no record at all. *)
Definition cleaned_empty : BookCleaner :=
  {| data := PList []; cleaned_data := Some empty_frame |}.

(** A world whose database does not answer. *)
Definition offline_world : world :=
  mkWorld [] ∅ ∅ ∅ (fun _ => raise RequestsConnectionError "Max retries exceeded")
    {["sqlite"]} false ∅ (fun _ t => (Return empty_frame, t)) None.

(** A world in which the search answers with two books. *)
Definition two_books_world : world :=
  mkWorld [] ∅ ∅ ∅
    (fun _ => Return (ok_response (PDict [("docs", PList [book_T1; book_AB])])))
    {["sqlite"]} true ∅ (fun _ t => (Return empty_frame, t)) None.

Definition years_frame : DataFrame :=
  {| columns := ["title"; "author_name"; "first_publish_year"; "ratings"];
     rows := [[PStr "a"; PStr ""; PInt 2001; PStr ""];
              [PStr "b"; PStr ""; PInt 2001; PStr ""];
              [PStr "c"; PStr ""; PInt 2002; PStr ""]] |}.

(** A formatter of cells: strings as they are, integers in decimal, anything
    else empty. *)
Definition plain_format (col : list pyval) (v : pyval) : string :=
  match v with
  | PStr s => s
  | PInt z => str_of_Z z
  | _ => ""
  end.

Section Pipeline.

(** How pandas prints a cell of a column into a CSV field (it looks at the
    whole column to choose how: integers beside a missing value print as
    floats).  The text it chooses is left open; everything below holds for
    every choice. *)
Variable format_cell : list pyval -> pyval -> string.

(** ** BookCleaner, continued: the exports *)

Definition nth_column (df : DataFrame) (j : nat) : list pyval :=
  map (fun r => nth j r NaN) (rows df).

Definition format_row (df : DataFrame) (r : list pyval) : list string :=
  imap (fun j v => format_cell (nth_column df j) v) r.

(** [df.to_csv(index=False)]: the header, then one line per row. *)
Definition to_csv (df : DataFrame) : string :=
  csv_rows (columns df :: map (format_row df) (rows df)).

Definition save_data_into_csv (filename : string) : Method BookCleaner unit :=
  this ← self;
  df ← pure (attr_of (cleaned_data this) "to_csv");
  io (write_file filename (TextFile (to_csv df)));;
  io (print (inl ("Data saved to " +:+ filename))).

(** ** BookDatabase *)

Record BookDatabase : Type := mkBookDatabase {
  conn_url : string;
  engine : Engine;
  df : DataFrame
}.

(** A sink holding the three-row frame of years. *)
Definition years_sink : BookDatabase :=
  {| conn_url := "sqlite:///books.db";
     engine := {| engine_url := "sqlite:///books.db" |};
     df := years_frame |}.

(** [not s] for a string or None. *)
Definition falsy (s : option string) : bool :=
  match s with
  | None => true
  | Some s => String.eqb s ""
  end.

Definition BookDatabase_init (df : DataFrame) : M world BookDatabase :=
  conn_url ← os_getenv "DB_CONN_URL";
  if falsy conn_url then
    pure (raise ValueError "No connection URL found in environment variables")
  else
    let u := default "" conn_url in
    engine ← create_engine u;
    mret {| conn_url := u; engine := engine; df := df |}.

Definition dataframe_to_db : Method BookDatabase unit :=
  this ← self;
  io (to_sql (df this) "LibBooks" (engine this) IfReplace);;
  io (print (inl "Data inserted into the database.")).

Definition query (query : string) : Method BookDatabase unit :=
  try_except
    (this ← self;
     df_from_db ← io (read_sql query (engine this));
     io (print (inr (head df_from_db))))
    Exception
    (fun e => io (print (inl ("Error querying the database: " +:+ str_exn e)))).

(** ** BookVisualizer *)

(** The field is [self.df] in the source; it is named apart from the sink's. *)
Record BookVisualizer : Type := mkBookVisualizer { vis_df : DataFrame }.

Definition BookVisualizer_init (dataframe : DataFrame) : BookVisualizer :=
  {| vis_df := dataframe |}.

Definition plot_publish_year_count : Method BookVisualizer unit :=
  this ← self;
  let output_dir := "Visualizations" in
  io (os_makedirs output_dir);;
  io (plt_figure (12, 8)%Z);;
  io (sns_countplot (vis_df this) "first_publish_year" "coolwarm");;
  io (plt_title "Number of Books by First Publish Year");;
  io (plt_xlabel "First Publish Year");;
  io (plt_ylabel "Number of Books");;
  io (plt_xticks 45);;
  io (plt_grid "y" "--" 70);;
  io plt_tight_layout;;
  let output_path := os_path_join output_dir "countplot.png" in
  io (plt_savefig output_path);;
  io plt_close;;
  io (print (inl ("Plot saved to " +:+ output_path))).

(** ** main *)

Definition API_URL : string :=
  "https://openlibrary.org/search.json?q=fiction&sort=rating&fields=title,author_name,first_publish_year,ratings_sortable&limit=100".

Definition main : M world unit :=
  '(books, _) ← call (BookFetcher_init API_URL) extract_books;
  '(cleaned_df, cleaner) ← call (BookCleaner_init books) clean_data;
  '(_, cleaner) ← call cleaner (save_data_into_csv "books_cleaned.csv");
  '(_, cleaner) ← call cleaner (save_data_into_json "books.json");
  db ← BookDatabase_init cleaned_df;
  '(_, db) ← call db dataframe_to_db;
  '(_, db) ← call db (query "
        SELECT * FROM LibBooks;
    ");
  '(_, _) ← call (BookVisualizer_init cleaned_df) plot_publish_year_count;
  mret tt.


(** ** Notions used to state what a run does and leaves alone *)

(** A computation that cannot return: from every state it raises. *)
Definition always_raises {S A} (m : M S A) : Prop :=
  forall s, exists e, fst (m s) = Raise e.

(** The second world differs from the first at most in what was printed and
    in the files named in [ps]. *)
Definition only_files (ps : list string) (w w' : world) : Prop :=
  environ w' = environ w /\ dirs w' = dirs w /\ http w' = http w /\
  drivers w' = drivers w /\ db_up w' = db_up w /\ tables w' = tables w /\
  sql w' = sql w /\ pyplot w' = pyplot w /\
  forall p, p ∉ ps -> files w' !! p = files w !! p.

(** The keys of a raw record that [clean_data] reads. *)
Definition source_keys : list string :=
  ["title"; "author_name"; "first_publish_year"; "ratings_sortable"].

(** Two items that are dicts with the same entries under the source keys. *)
Definition same_fields (a b : pyval) : Prop :=
  exists d d', a = PDict d /\ b = PDict d' /\
    forall k, k ∈ source_keys -> assoc k d = assoc k d'.


(** The record T1 with an entry the cleaner does not read. *)
Definition book_T1_isbn : pyval :=
  PDict [("isbn", PList [PStr "0000000000"]); ("title", PStr "T1");
         ("author_name", PList [PStr "X"]);
         ("first_publish_year", PInt 2001); ("ratings_sortable", PInt 5)].

(** A world in which the search answers with a JSON array, not an object. *)
Definition array_body_world : world :=
  mkWorld [] ∅ ∅ ∅
    (fun _ => Return (ok_response (PList [book_T1])))
    {["sqlite"]} true ∅ (fun _ t => (Return empty_frame, t)) None.

(** A world in which the search answers with text that is no JSON, the
    decoder raising the error [e]. *)
Definition no_json_world (e : exn) : world :=
  mkWorld [] ∅ ∅ ∅
    (fun _ => Return {| status_code := 200; reason := "OK";
                        url := "http://books"; json_body := Raise e |})
    {["sqlite"]} true ∅ (fun _ t => (Return empty_frame, t)) None.


(** The chart of [plot_publish_year_count] with the bars [bs]. *)
Definition year_chart (bs : list (pyval * nat)) : Figure :=
  {| figsize := (12, 8)%Z; bars := bs; palette := "coolwarm";
     fig_title := "Number of Books by First Publish Year";
     fig_xlabel := "First Publish Year";
     fig_ylabel := "Number of Books";
     xticks_rotation := 45; grid := Some ("y", "--", 70%Z) |}.

(** The world once [plot_publish_year_count] has made its directory and
    opened its figure. *)
Definition figure_opened (w : world) : world :=
  set_pyplot (set_dirs w ({["Visualizations"]} ∪ dirs w))
             (Some (blank_figure (12, 8)%Z)).









(** A cleaner on one record whose [author_name] is null. *)
Definition null_author_cleaner : BookCleaner :=
  BookCleaner_init (PList [PDict [("author_name", PNone)]]).

(** * Properties *)

#[local] Arguments Ascii.eqb : simpl never.

(** ** Running the monad *)

Lemma bind_return {S A B} (m : M S A) (f : A -> M S B) s a s' :
  m s = (Return a, s') -> (m ≫= f) s = f a s'.
Proof. intros H. unfold mbind, M_bind. now rewrite H. Qed.


Lemma mapR_length {A B} (f : A -> result B) l l' :
  mapR f l = Return l' -> length l' = length l.
Proof.
  revert l'. induction l as [|x l IH]; intros l'; simpl.
  - intros [= <-]. reflexivity.
  - destruct (f x) as [y|e]; simpl; [|discriminate].
    destruct (mapR f l) as [ys|e]; simpl; [|discriminate].
    intros [= <-]. simpl. now rewrite (IH ys).
Qed.



(** ** The cleaner: one row per record *)

Lemma expect_strs_strings l names i :
  strings_of l = Some names -> expect_strs i l = Return names.
Proof.
  revert names i. induction l as [|o l IH]; intros names i; simpl.
  - now intros [= <-].
  - destruct o; try discriminate.
    destruct (strings_of l) as [ns|] eqn:Hl; simpl; [|discriminate].
    intros [= <-]. now rewrite (IH ns (S i)).
Qed.

(** What the loop body makes of a raw record. *)
Lemma flatten_item_raw d names :
  author_names d = Some names ->
  flatten_item (PDict d) =
    Return [("title", default (PStr "") (assoc "title" d));
            ("author_name", PStr (String.concat ", " names));
            ("first_publish_year", default (PStr "") (assoc "first_publish_year" d));
            ("ratings", default (PStr "") (assoc "ratings_sortable" d))].
Proof.
  unfold author_names, flatten_item. simpl.
  destruct (assoc "author_name" d) as [v|]; simpl.
  - destruct v; try discriminate. intros H.
    unfold str_join. simpl. now rewrite (expect_strs_strings _ _ _ H).
  - now intros [= <-].
Qed.

Lemma flatten_item_keys item r :
  flatten_item item = Return r -> has_four_keys r.
Proof.
  unfold flatten_item. destruct item; simpl; try discriminate.
  destruct (str_join _ _); simpl; [|discriminate].
  now intros [= <-].
Qed.

Lemma mapR_flatten_keys items rs :
  mapR flatten_item items = Return rs -> Forall has_four_keys rs.
Proof.
  revert rs. induction items as [|x l IH]; intros rs; simpl.
  - intros [= <-]. constructor.
  - destruct (flatten_item x) as [y|e] eqn:Hy; simpl; [|discriminate].
    destruct (mapR flatten_item l) as [ys|e]; simpl; [|discriminate].
    intros [= <-]. constructor; eauto using flatten_item_keys.
Qed.

Lemma union_keys_four_aux rs :
  Forall has_four_keys rs ->
  fold_left (fun acc d => add_keys acc (keys d)) rs four_columns = four_columns.
Proof.
  induction 1 as [|r rs Hr _ IH]; simpl; [reflexivity|].
  rewrite Hr. exact IH.
Qed.

(** Every cleaned row has the same four keys, so they are the columns as
    soon as there is a row. *)
Lemma union_keys_four r rs :
  Forall has_four_keys (r :: rs) -> union_keys (r :: rs) = four_columns.
Proof.
  intros H. inversion H as [|? ? Hr Hrs]; subst. unfold union_keys. simpl.
  rewrite Hr. simpl. now apply union_keys_four_aux.
Qed.

Lemma clean_data_unfold (c : BookCleaner) (w : world) items rs :
  py_iter (data c) = Return items ->
  mapR flatten_item items = Return rs ->
  clean_data (c, w) =
    (Return (pd_DataFrame rs),
     ({| data := data c; cleaned_data := Some (pd_DataFrame rs) |}, w)).
Proof.
  intros Hi Hr. unfold clean_data, mbind, M_bind, self, pure. simpl.
  rewrite Hi, Hr. reflexivity.
Qed.

Lemma clean_data_inv (c : BookCleaner) (w : world) df s :
  clean_data (c, w) = (Return df, s) ->
  exists items rs, py_iter (data c) = Return items /\
    mapR flatten_item items = Return rs /\ df = pd_DataFrame rs /\
    s = ({| data := data c; cleaned_data := Some df |}, w).
Proof.
  unfold clean_data, mbind, M_bind, self, pure. simpl.
  destruct (py_iter (data c)) as [items|e]; [|discriminate].
  destruct (mapR flatten_item items) as [rs|e] eqn:Hrs; [|discriminate].
  simpl. intros [= <- <-]. exists items, rs. auto.
Qed.



Lemma pd_DataFrame_rows rs : length (rows (pd_DataFrame rs)) = length rs.
Proof. unfold pd_DataFrame. simpl. now rewrite length_map. Qed.

Lemma pd_DataFrame_columns rs :
  Forall has_four_keys rs ->
  columns (pd_DataFrame rs) = if rs is [] then [] else four_columns.
Proof.
  intros H. destruct rs as [|r rs]; [reflexivity|].
  unfold pd_DataFrame. simpl columns. now apply union_keys_four.
Qed.



(** ** The cleaner: the author field *)

Lemma column_four (rs : list pydict) (name : string) (j : nat) :
  Forall has_four_keys rs -> rs <> [] ->
  index_of name four_columns = Some j ->
  column (pd_DataFrame rs) name =
    Some (map (fun d => nth j (map (fun c => default NaN (assoc c d)) four_columns) NaN) rs).
Proof.
  intros Hk Hne Hj. unfold column.
  rewrite (pd_DataFrame_columns _ Hk). destruct rs as [|r rs]; [done|].
  rewrite Hj. simpl. unfold pd_DataFrame. cbn [rows].
  rewrite (union_keys_four _ _ Hk). now rewrite map_map.
Qed.

(** C2. For a raw record whose [author_name] is a list of strings, the cleaned
    [author_name] is the elements joined with a comma and a space; an empty
    list and a missing [author_name] both give the empty string. *)
Theorem author_name_joined (d : pydict) (names : list string) (w : world) :
  assoc "author_name" d = Some (PList (map PStr names)) \/
  (assoc "author_name" d = None /\ names = []) ->
  exists df s,
    clean_data (BookCleaner_init (PList [PDict d]), w) = (Return df, s) /\
    column df "author_name" = Some [PStr (String.concat ", " names)] /\
    (names = [] -> column df "author_name" = Some [PStr ""]) /\
    (forall a b, names = [a; b] ->
       column df "author_name" = Some [PStr (a +:+ ", " +:+ b)]).
Proof.
  intros H.
  assert (Hn : author_names d = Some names).
  { unfold author_names. destruct H as [-> | [-> ->]]; [|reflexivity].
    clear. induction names as [|n names IH]; simpl; [reflexivity|].
    now rewrite IH. }
  pose proof (flatten_item_raw _ _ Hn) as Hf.
  assert (Hrs : mapR flatten_item [PDict d] = Return
    [[("title", default (PStr "") (assoc "title" d));
      ("author_name", PStr (String.concat ", " names));
      ("first_publish_year", default (PStr "") (assoc "first_publish_year" d));
      ("ratings", default (PStr "") (assoc "ratings_sortable" d))]]).
  { simpl. now rewrite Hf. }
  eexists _, _. split.
  - exact (clean_data_unfold (BookCleaner_init (PList [PDict d])) w _ _ eq_refl Hrs).
  - assert (Hc : column (pd_DataFrame
      [[("title", default (PStr "") (assoc "title" d));
        ("author_name", PStr (String.concat ", " names));
        ("first_publish_year", default (PStr "") (assoc "first_publish_year" d));
        ("ratings", default (PStr "") (assoc "ratings_sortable" d))]]) "author_name"
      = Some [PStr (String.concat ", " names)]) by reflexivity.
    split; [exact Hc|]. split.
    + intros ->. exact Hc.
    + intros a b ->. exact Hc.
Qed.

(** ** The cleaner: the empty input *)

(** C10. On the empty sequence of records [clean_data] returns a frame with no
    row and no column, so none of title, author_name, first_publish_year and
    ratings is there; on every non-empty input the frame it returns has
    exactly those four columns.  Selecting a column tells the two apart: the
    count plot, which selects [first_publish_year], fails on the empty frame
    for want of the column. *)
Theorem clean_data_empty_input_has_no_columns (w : world) :
  fst (clean_data (BookCleaner_init (PList []), w)) = Return empty_frame /\
  (forall name, column empty_frame name = None) /\
  (forall records df s,
     records <> [] ->
     clean_data (BookCleaner_init (PList records), w) = (Return df, s) ->
     columns df = four_columns /\
     rows df <> [] /\
     forall name, name ∈ four_columns -> is_Some (column df name)) /\
  countplot_bars empty_frame "first_publish_year" =
    raise ValueError
      "Could not interpret value `first_publish_year` for `x`. An entry with this name does not appear in `data`." /\
  (forall records df s,
     records <> [] ->
     clean_data (BookCleaner_init (PList records), w) = (Return df, s) ->
     forall e, countplot_bars df "first_publish_year" = Raise e ->
               exn_type e <> ValueError).
Proof.
  split; [reflexivity|]. split; [reflexivity|].
  assert (Hne : forall records df s, records <> [] ->
     clean_data (BookCleaner_init (PList records), w) = (Return df, s) ->
     exists rs, df = pd_DataFrame rs /\ Forall has_four_keys rs /\ rs <> []).
  { intros records df0 s Hne H.
    destruct (clean_data_inv _ _ _ _ H) as (items & rs & Hi & Hrs & -> & _).
    simpl in Hi. injection Hi as <-. exists rs. split; [reflexivity|].
    split; [now apply mapR_flatten_keys in Hrs|].
    apply mapR_length in Hrs. destruct rs; [|done].
    destruct records; [done|discriminate]. }
  split; [|split; [reflexivity|]].
  - intros records df0 s Hrec H.
    destruct (Hne _ _ _ Hrec H) as (rs & -> & Hk & Hrs).
    split; [|split].
    + rewrite (pd_DataFrame_columns _ Hk). now destruct rs.
    + intros Hr. apply (f_equal length) in Hr.
      rewrite pd_DataFrame_rows in Hr. now destruct rs.
    + intros name Hin. unfold four_columns in Hin.
      repeat (apply elem_of_cons in Hin as [-> | Hin];
              [erewrite column_four by (eauto; reflexivity); eauto|]).
      now apply elem_of_nil in Hin.
  - intros records df0 s Hrec H e.
    destruct (Hne _ _ _ Hrec H) as (rs & -> & Hk & Hrs).
    unfold countplot_bars.
    erewrite column_four by (eauto; reflexivity).
    destruct (mapR hash_key _) as [ks|e'] eqn:Hks; simpl; [discriminate|].
    intros [= ->]. clear -Hks.
    revert e Hks. generalize (map (fun d : pydict =>
      nth 2 (map (fun c => default NaN (assoc c d)) four_columns) NaN) rs).
    induction l as [|v l IH]; simpl; intros e; [discriminate|].
    destruct (hash_key v) as [k|e0] eqn:Hv; simpl.
    + destruct (mapR hash_key l); simpl; [discriminate|].
      intros [= ->]. now apply IH.
    + intros [= ->]. destruct v as [| | |[]| | |]; simpl in Hv; try discriminate;
        injection Hv as <-; discriminate.
Qed.

(** ** The fetcher *)

Lemma raise_for_status_ok r :
  ~ (400 <= status_code r < 600)%Z -> raise_for_status r = Return tt.
Proof.
  intros H. unfold raise_for_status.
  destruct (400 <=? status_code r)%Z eqn:H1, (status_code r <? 500)%Z eqn:H2,
    (500 <=? status_code r)%Z eqn:H3, (status_code r <? 600)%Z eqn:H4;
    simpl; try reflexivity; lia.
Qed.

Lemma raise_for_status_error r :
  (400 <= status_code r < 600)%Z ->
  exists msg, raise_for_status r = raise HTTPError msg.
Proof.
  intros H. unfold raise_for_status.
  destruct (400 <=? status_code r)%Z eqn:H1, (status_code r <? 500)%Z eqn:H2,
    (500 <=? status_code r)%Z eqn:H3, (status_code r <? 600)%Z eqn:H4;
    simpl; eauto; lia.
Qed.

(** An exception that leaves a [try] was not one its [except] names. *)
Lemma try_except_escapes {S A} (body : M S A) c (h : exn -> M S A) s e :
  (forall e0 s0 e1, fst (h e0 s0) <> Raise e1) ->
  fst (try_except body c h s) = Raise e -> isinstance e c = false.
Proof.
  intros Hh. unfold try_except.
  destruct (body s) as [[a|e0] s'] eqn:Hb; simpl; [discriminate|].
  destruct (isinstance e0 c) eqn:Hi.
  - intros H. now apply Hh in H.
  - simpl. now intros [= <-].
Qed.

(** C3. [extract_books] lets no transport or HTTP-status exception out: when
    the GET raises one, or the status is an error status, it prints the error
    and returns the empty list; when the request succeeds it returns the
    [docs] entry of the decoded body, or the empty list when the body has no
    such key. *)
Theorem extract_books_degrades_to_empty (f : BookFetcher) (w : world) :
  (forall e, fst (extract_books (f, w)) = Raise e ->
             isinstance e RequestException = false) /\
  (forall e, http w (api_url f) = Raise e ->
             isinstance e RequestException = true ->
     extract_books (f, w) =
       (Return (PList []),
        (f, set_stdout w (stdout w ++ [inl ("Error fetching books: " +:+ exn_msg e)])))) /\
  (forall r, http w (api_url f) = Return r ->
             (400 <= status_code r < 600)%Z ->
     exists msg,
       extract_books (f, w) =
         (Return (PList []),
          (f, set_stdout w (stdout w ++ [inl ("Error fetching books: " +:+ msg)])))) /\
  (forall r d, http w (api_url f) = Return r ->
               ~ (400 <= status_code r < 600)%Z ->
               json_body r = Return (PDict d) ->
     (forall docs, assoc "docs" d = Some docs ->
        extract_books (f, w) = (Return docs, (f, w))) /\
     (assoc "docs" d = None ->
        extract_books (f, w) = (Return (PList []), (f, w)))).
Proof.
  split; [|split; [|split]].
  - intros e. apply try_except_escapes. intros e0 [f0 w0] e1. discriminate.
  - intros e He Hi. unfold extract_books, try_except, mbind, M_bind, self, io,
      requests_get. simpl. rewrite He. simpl. now rewrite Hi.
  - intros r Hr Hs. destruct (raise_for_status_error r Hs) as [msg Hmsg].
    exists msg. unfold extract_books, try_except, mbind, M_bind, self, io,
      requests_get, pure. simpl. rewrite Hr. simpl. rewrite Hmsg. reflexivity.
  - intros r d Hr Hs Hj.
    assert (H : extract_books (f, w) =
                (Return (default (PList []) (assoc "docs" d)), (f, w))).
    { unfold extract_books, try_except, mbind, M_bind, self, io, requests_get,
        pure, response_json. simpl. rewrite Hr. simpl.
      rewrite (raise_for_status_ok r Hs), Hj. reflexivity. }
    split.
    + intros docs Hd. now rewrite H, Hd.
    + intros Hd. now rewrite H, Hd.
Qed.

(** ** The database sink *)





(** C5. [query] lets no exception of class Exception out, whatever the query
    text: when running it raises one, the error is printed and the call
    returns; when it succeeds, the first five rows of the result are printed;
    either way the sink, and the frame it stores, are as before. *)
Theorem query_swallows_errors (db : BookDatabase) (q : string) (w : world) :
  (forall e, fst (query q (db, w)) = Raise e -> isinstance e Exception = false) /\
  (forall e w', read_sql q (engine db) w = (Raise e, w') ->
                isinstance e Exception = true ->
     query q (db, w) =
       (Return tt,
        (db, set_stdout w' (stdout w' ++
               [inl ("Error querying the database: " +:+ exn_msg e)])))) /\
  (forall t w', read_sql q (engine db) w = (Return t, w') ->
     query q (db, w) =
       (Return tt, (db, set_stdout w' (stdout w' ++ [inr (head t)]))) /\
     rows (head t) = take 5 (rows t) /\ columns (head t) = columns t) /\
  object_after (query q (db, w)) = db /\
  df (object_after (query q (db, w))) = df db.
Proof.
  assert (Hobj : object_after (query q (db, w)) = db).
  { unfold object_after, query, try_except, mbind, M_bind, self, io. simpl.
    destruct (read_sql q (engine db) w) as [[t|e] w']; simpl; [reflexivity|].
    destruct (isinstance e Exception); reflexivity. }
  split; [|split; [|split; [|split]]].
  - intros e. apply try_except_escapes. intros e0 [o0 w0] e1. discriminate.
  - intros e w' He Hi. unfold query, try_except, mbind, M_bind, self, io. simpl.
    rewrite He. simpl. now rewrite Hi.
  - intros t w' Ht. split; [|split; reflexivity].
    unfold query, try_except, mbind, M_bind, self, io. simpl.
    rewrite Ht. reflexivity.
  - exact Hobj.
  - now rewrite Hobj.
Qed.




(** ** The cleaner: exports before and after cleaning *)

Lemma write_file_spec path f w :
  write_file path f w =
    if writable w path then (Return tt, set_files w (<[path := f]> (files w)))
    else if bool_decide (path ∈ dirs w) then
      (raise IsADirectoryError ("[Errno 21] Is a directory: '" +:+ path +:+ "'"), w)
    else
      (raise FileNotFoundError
         ("[Errno 2] No such file or directory: '" +:+ path +:+ "'"), w).
Proof.
  unfold write_file, writable.
  destruct (bool_decide (path ∈ dirs w)); simpl; [reflexivity|].
  destruct (String.eqb path ""); simpl; [reflexivity|].
  now destruct (dir_exists w (dirname path)).
Qed.


Lemma save_data_into_csv_cleaned filename c d w :
  cleaned_data c = Some d ->
  save_data_into_csv filename (c, w) =
    match write_file filename (TextFile (to_csv d)) w with
    | (Return _, w') =>
        (Return tt, (c, set_stdout w' (stdout w' ++ [inl ("Data saved to " +:+ filename)])))
    | (Raise e, w') => (Raise e, (c, w'))
    end.
Proof.
  intros H. unfold save_data_into_csv, mbind, M_bind, self, io, pure. simpl.
  rewrite H. simpl.
  destruct (write_file filename (TextFile (to_csv d)) w) as [[[]|e] w']; reflexivity.
Qed.

Lemma save_data_into_json_cleaned filename c d w :
  cleaned_data c = Some d ->
  save_data_into_json filename (c, w) =
    match write_file filename (JsonFile (to_json_records d)) w with
    | (Return _, w') =>
        (Return tt, (c, set_stdout w' (stdout w' ++ [inl ("Data saved to " +:+ filename)])))
    | (Raise e, w') => (Raise e, (c, w'))
    end.
Proof.
  intros H. unfold save_data_into_json, mbind, M_bind, self, io, pure. simpl.
  rewrite H. simpl.
  destruct (write_file filename (JsonFile (to_json_records d)) w) as [[[]|e] w']; reflexivity.
Qed.


(** ** The visualizer: grouping and counting *)













Lemma makedirs_fresh d w :
  d <> "" -> files w !! d = None ->
  os_makedirs d w =
    (Return tt, set_dirs w (list_to_set (ancestors (String.length d) d) ∪ dirs w)).
Proof.
  intros Hd Hf. unfold os_makedirs. apply String.eqb_neq in Hd. rewrite Hd, Hf.
  rewrite bool_decide_eq_false_2; [reflexivity|]. now intros [? ?].
Qed.



(** ** CSV: what is written reads back *)

























(** * Further properties of the program *)

(** ** The fetcher: what the [try] does not cover *)

Lemma extract_books_decoded (f : BookFetcher) (w : world) (r : response) (v : pyval) :
  http w (api_url f) = Return r ->
  ~ (400 <= status_code r < 600)%Z ->
  json_body r = Return v ->
  extract_books (f, w) =
    match py_get v "docs" (PList []) with
    | Return docs => (Return docs, (f, w))
    | Raise e => (Raise e, (f, w))
    end.
Proof.
  intros Hr Hs Hj.
  unfold extract_books, try_except, mbind, M_bind, self, io, requests_get,
    pure, response_json. simpl. rewrite Hr. simpl.
  rewrite (raise_for_status_ok r Hs), Hj.
  destruct v; reflexivity.
Qed.

(** X1. A good response whose body decodes to anything but an object makes
    [extract_books] raise: the AttributeError of [data.get] is no
    RequestException, so it leaves the [try], and nothing is printed. *)
Theorem extract_books_non_object_body (f : BookFetcher) (w : world)
    (r : response) (v : pyval) :
  http w (api_url f) = Return r ->
  ~ (400 <= status_code r < 600)%Z ->
  json_body r = Return v ->
  (forall d, v <> PDict d) ->
  extract_books (f, w) =
    (raise AttributeError
       ("'" +:+ type_name v +:+ "' object has no attribute 'get'"), (f, w)).
Proof.
  intros Hr Hs Hj Hv. rewrite (extract_books_decoded f w r v Hr Hs Hj).
  destruct v; try reflexivity. now destruct (Hv d).
Qed.

(** X2. A good response whose body cannot be decoded: the decoder's exception
    is swallowed, with the error printed and the empty list returned, exactly
    when it is a RequestException; any other exception leaves
    [extract_books], and nothing is printed. *)
Theorem extract_books_undecodable_body (f : BookFetcher) (w : world)
    (r : response) (e : exn) :
  http w (api_url f) = Return r ->
  ~ (400 <= status_code r < 600)%Z ->
  json_body r = Raise e ->
  extract_books (f, w) =
    if isinstance e RequestException then
      (Return (PList []),
       (f, set_stdout w (stdout w ++ [inl ("Error fetching books: " +:+ exn_msg e)])))
    else (Raise e, (f, w)).
Proof.
  intros Hr Hs Hj.
  unfold extract_books, try_except, mbind, M_bind, self, io, requests_get,
    pure, response_json. simpl. rewrite Hr. simpl.
  rewrite (raise_for_status_ok r Hs), Hj. simpl.
  now destruct (isinstance e RequestException).
Qed.

(** ** The cleaner: failure, extra keys, running again *)

Lemma mapR_raises {A B} (f : A -> result B) l e :
  mapR f l = Raise e -> exists x, x ∈ l /\ f x = Raise e.
Proof.
  induction l as [|x l IH]; simpl; [discriminate|].
  destruct (f x) as [y|e0] eqn:Hx; simpl.
  - destruct (mapR f l) as [ys|e1]; simpl; [discriminate|].
    intros [= <-]. destruct (IH eq_refl) as (x0 & Hin & H0).
    exists x0. split; [now right | exact H0].
  - intros [= <-]. exists x. split; [now left | exact Hx].
Qed.

Lemma expect_strs_raises i l e :
  expect_strs i l = Raise e -> exn_type e = TypeError.
Proof.
  revert i. induction l as [|o l IH]; intros i; simpl; [discriminate|].
  destruct (expect_str i o) as [s|e0] eqn:Ho; simpl.
  - destruct (expect_strs (S i) l) as [ss|e1] eqn:Hl; simpl; [discriminate|].
    intros [= <-]. exact (IH _ Hl).
  - intros [= <-]. destruct o; simpl in Ho; try discriminate;
      injection Ho as <-; reflexivity.
Qed.

Lemma flatten_item_raises item e :
  flatten_item item = Raise e ->
  exn_type e = TypeError \/ exn_type e = AttributeError.
Proof.
  unfold flatten_item. destruct item; simpl; try (intros [= <-]; now right).
  unfold str_join. destruct (py_iter _) as [items|e0]; simpl.
  - destruct (expect_strs 0 items) as [ss|e1] eqn:Hs; simpl; [discriminate|].
    intros [= <-]. left. exact (expect_strs_raises _ _ _ Hs).
  - intros [= <-]. now left.
Qed.

(** X3. When [clean_data] raises, it has changed nothing: the cleaner (its
    stored structure included) and the world are as before, and the
    exception is a TypeError or an AttributeError. *)
Theorem clean_data_failure_changes_nothing (c : BookCleaner) (w : world)
    (e : exn) (s : BookCleaner * world) :
  clean_data (c, w) = (Raise e, s) ->
  s = (c, w) /\ (exn_type e = TypeError \/ exn_type e = AttributeError).
Proof.
  unfold clean_data, mbind, M_bind, self, pure. simpl.
  destruct (py_iter (data c)) as [items|e0] eqn:Hi.
  - destruct (mapR flatten_item items) as [rs|e1] eqn:Hrs; simpl; [discriminate|].
    intros [= <- <-]. split; [reflexivity|].
    destruct (mapR_raises _ _ _ Hrs) as (x & _ & Hx).
    exact (flatten_item_raises _ _ Hx).
  - intros [= <- <-]. split; [reflexivity|]. left.
    destruct (data c); simpl in Hi; try discriminate; injection Hi as <-; reflexivity.
Qed.

Lemma flatten_item_same_fields a b :
  same_fields a b -> flatten_item a = flatten_item b.
Proof.
  intros (d & d' & -> & -> & H). unfold flatten_item, py_get.
  rewrite (H "title"), (H "author_name"), (H "first_publish_year"),
    (H "ratings_sortable"); [reflexivity|..]; unfold source_keys;
    repeat (first [left | right]).
Qed.

(** X4. [clean_data] reads four keys of a record and nothing else: two
    sequences of records that agree, item by item, on title, author_name,
    first_publish_year and ratings_sortable give the same result, the same
    frame or the same exception. *)
Theorem clean_data_reads_four_keys (records records' : list pyval) (w : world) :
  Forall2 same_fields records records' ->
  fst (clean_data (BookCleaner_init (PList records), w)) =
  fst (clean_data (BookCleaner_init (PList records'), w)).
Proof.
  intros H.
  assert (Hmap : mapR flatten_item records = mapR flatten_item records').
  { induction H as [|a b l l' Hab _ IH]; simpl; [reflexivity|].
    now rewrite (flatten_item_same_fields a b Hab), IH. }
  unfold clean_data, mbind, M_bind, self, pure. simpl. rewrite Hmap.
  destruct (mapR flatten_item records'); reflexivity.
Qed.

(** X5. [clean_data] can be run again: after it returned a frame, running it
    once more, in any world, returns the same frame and leaves the cleaner
    and the world as they are. *)
Theorem clean_data_again (c c' : BookCleaner) (w w' w2 : world) (d : DataFrame) :
  clean_data (c, w) = (Return d, (c', w')) ->
  clean_data (c', w2) = (Return d, (c', w2)).
Proof.
  intros H. destruct (clean_data_inv _ _ _ _ H) as (items & rs & Hi & Hrs & -> & Hs).
  injection Hs as -> _.
  exact (clean_data_unfold
           {| data := data c; cleaned_data := Some (pd_DataFrame rs) |}
           w2 items rs Hi Hrs).
Qed.

(** ** The cleaner: the JSON export *)






(** ** The exports: one file, and nothing else *)

Lemma only_files_refl ps w : only_files ps w w.
Proof. unfold only_files. auto 10. Qed.



Lemma only_files_stdout ps w w' v :
  only_files ps w w' -> only_files ps w (set_stdout w' v).
Proof. unfold only_files. simpl. auto. Qed.

Lemma write_file_only path f w :
  only_files [path] w (snd (write_file path f w)).
Proof.
  rewrite write_file_spec. destruct (writable w path).
  - unfold only_files. simpl. repeat split; try reflexivity.
    intros p Hp. apply lookup_insert_ne. intros ->. apply Hp. now left.
  - destruct (bool_decide (path ∈ dirs w)); apply only_files_refl.
Qed.

Lemma save_data_into_csv_world filename c w :
  world_after (save_data_into_csv filename (c, w)) =
    match cleaned_data c with
    | None => w
    | Some d =>
        match write_file filename (TextFile (to_csv d)) w with
        | (Return _, w') =>
            set_stdout w' (stdout w' ++ [inl ("Data saved to " +:+ filename)])
        | (Raise _, w') => w'
        end
    end.
Proof.
  destruct (cleaned_data c) as [d|] eqn:Hc.
  - rewrite (save_data_into_csv_cleaned filename c d w Hc).
    destruct (write_file _ _ w) as [[[]|e] w']; reflexivity.
  - unfold world_after, save_data_into_csv, mbind, M_bind, self, io, pure. simpl.
    now rewrite Hc.
Qed.

Lemma save_data_into_json_world filename c w :
  world_after (save_data_into_json filename (c, w)) =
    match cleaned_data c with
    | None => w
    | Some d =>
        match write_file filename (JsonFile (to_json_records d)) w with
        | (Return _, w') =>
            set_stdout w' (stdout w' ++ [inl ("Data saved to " +:+ filename)])
        | (Raise _, w') => w'
        end
    end.
Proof.
  destruct (cleaned_data c) as [d|] eqn:Hc.
  - rewrite (save_data_into_json_cleaned filename c d w Hc).
    destruct (write_file _ _ w) as [[[]|e] w']; reflexivity.
  - unfold world_after, save_data_into_json, mbind, M_bind, self, io, pure. simpl.
    now rewrite Hc.
Qed.

Lemma save_data_into_csv_object filename c w :
  object_after (save_data_into_csv filename (c, w)) = c.
Proof.
  destruct (cleaned_data c) as [d|] eqn:Hc.
  - rewrite (save_data_into_csv_cleaned filename c d w Hc).
    destruct (write_file _ _ w) as [[[]|e] w']; reflexivity.
  - unfold object_after, save_data_into_csv, mbind, M_bind, self, io, pure. simpl.
    now rewrite Hc.
Qed.

Lemma save_data_into_json_object filename c w :
  object_after (save_data_into_json filename (c, w)) = c.
Proof.
  destruct (cleaned_data c) as [d|] eqn:Hc.
  - rewrite (save_data_into_json_cleaned filename c d w Hc).
    destruct (write_file _ _ w) as [[[]|e] w']; reflexivity.
  - unfold object_after, save_data_into_json, mbind, M_bind, self, io, pure. simpl.
    now rewrite Hc.
Qed.

Lemma save_data_into_csv_only filename c w :
  only_files [filename] w (world_after (save_data_into_csv filename (c, w))).
Proof.
  rewrite save_data_into_csv_world. destruct (cleaned_data c) as [d|];
    [|apply only_files_refl].
  pose proof (write_file_only filename (TextFile (to_csv d)) w) as H.
  destruct (write_file _ _ w) as [[[]|e] w']; simpl in H;
    [now apply only_files_stdout | exact H].
Qed.

Lemma save_data_into_json_only filename c w :
  only_files [filename] w (world_after (save_data_into_json filename (c, w))).
Proof.
  rewrite save_data_into_json_world. destruct (cleaned_data c) as [d|];
    [|apply only_files_refl].
  pose proof (write_file_only filename (JsonFile (to_json_records d)) w) as H.
  destruct (write_file _ _ w) as [[[]|e] w']; simpl in H;
    [now apply only_files_stdout | exact H].
Qed.

(** X7. An export touches its one file and the standard output, and nothing
    else: not the cleaner, not another file, not the directories, the
    database or the figure; and exporting a second time to the same name
    leaves the files as the first export left them. *)
Theorem exports_touch_one_file (filename : string) (c : BookCleaner) (w : world) :
  (object_after (save_data_into_csv filename (c, w)) = c /\
   only_files [filename] w (world_after (save_data_into_csv filename (c, w))) /\
   files (world_after (save_data_into_csv filename
            (c, world_after (save_data_into_csv filename (c, w))))) =
   files (world_after (save_data_into_csv filename (c, w)))) /\
  (object_after (save_data_into_json filename (c, w)) = c /\
   only_files [filename] w (world_after (save_data_into_json filename (c, w))) /\
   files (world_after (save_data_into_json filename
            (c, world_after (save_data_into_json filename (c, w))))) =
   files (world_after (save_data_into_json filename (c, w)))).
Proof.
  split.
  - split; [apply save_data_into_csv_object|]. split; [apply save_data_into_csv_only|].
    rewrite !save_data_into_csv_world. destruct (cleaned_data c) as [d|]; [|reflexivity].
    rewrite (write_file_spec filename _ w). destruct (writable w filename) eqn:Hwr.
    + rewrite write_file_spec.
      match goal with |- context [writable ?w' filename] =>
        change (writable w' filename) with (writable w filename) end.
      rewrite Hwr. cbn [files set_files set_stdout]. apply insert_insert_eq.
    + destruct (bool_decide (filename ∈ dirs w)) eqn:Hd; unfold raise; cbn [fst snd];
        rewrite write_file_spec, Hwr, Hd; reflexivity.
  - split; [apply save_data_into_json_object|]. split; [apply save_data_into_json_only|].
    rewrite !save_data_into_json_world. destruct (cleaned_data c) as [d|]; [|reflexivity].
    rewrite (write_file_spec filename _ w). destruct (writable w filename) eqn:Hwr.
    + rewrite write_file_spec.
      match goal with |- context [writable ?w' filename] =>
        change (writable w' filename) with (writable w filename) end.
      rewrite Hwr. cbn [files set_files set_stdout]. apply insert_insert_eq.
    + destruct (bool_decide (filename ∈ dirs w)) eqn:Hd; unfold raise; cbn [fst snd];
        rewrite write_file_spec, Hwr, Hd; reflexivity.
Qed.

(** ** The database sink: what a write touches *)



(** ** The visualizer: the directory, the figure, the total *)

(** The method, step by step, when no file is in the way of its directory. *)
Lemma plot_publish_year_count_run v w :
  files w !! "Visualizations" = None ->
  plot_publish_year_count (v, w) =
    match countplot_bars (vis_df v) "first_publish_year" with
    | Raise e => (Raise e, (v, figure_opened w))
    | Return bs =>
        let w2 := set_pyplot (figure_opened w) (Some (year_chart bs)) in
        match write_file "Visualizations/countplot.png" (ImageFile (year_chart bs)) w2 with
        | (Return _, w3) =>
            (Return tt,
             (v, set_stdout (set_pyplot w3 None)
                   (stdout w3 ++ [inl "Plot saved to Visualizations/countplot.png"])%list))
        | (Raise e, w3) => (Raise e, (v, w3))
        end
    end.
Proof.
  intros Hf.
  assert (Hdirs : list_to_set (ancestors (String.length "Visualizations")
                                 "Visualizations") ∪ dirs w =
                  {["Visualizations"]} ∪ dirs w).
  { change (ancestors _ _) with ["Visualizations"]. simpl.
    now rewrite (right_id_L ∅ (∪)). }
  unfold plot_publish_year_count, mbind, M_bind, self, io. cbn [fst snd].
  rewrite (makedirs_fresh "Visualizations" w) by done. rewrite Hdirs.
  unfold plt_figure, sns_countplot, mbind, M_bind, pure. cbn [fst snd].
  fold (figure_opened w).
  destruct (countplot_bars (vis_df v) "first_publish_year") as [bs|e]; [|reflexivity].
  cbn. unfold plt_savefig. cbn.
  destruct (write_file _ _ _) as [[[]|e] w3]; reflexivity.
Qed.

Lemma write_file_dirs path f w : dirs (snd (write_file path f w)) = dirs w.
Proof.
  rewrite write_file_spec. destruct (writable w path); [reflexivity|].
  now destruct (bool_decide (path ∈ dirs w)).
Qed.

(** X9. [plot_publish_year_count] makes its output directory before anything
    else: unless a file of that name is in the way, the directory
    Visualizations exists once the method is over, whether it returned or
    raised; when such a file is there, the method raises FileExistsError and
    changes nothing. *)
Theorem plot_makes_directory_first (v : BookVisualizer) (w : world) :
  (files w !! "Visualizations" = None ->
   "Visualizations" ∈ dirs (world_after (plot_publish_year_count (v, w)))) /\
  (is_Some (files w !! "Visualizations") ->
   plot_publish_year_count (v, w) =
     (raise FileExistsError "[Errno 17] File exists: 'Visualizations'", (v, w))).
Proof.
  split.
  - intros Hf. rewrite (plot_publish_year_count_run v w Hf).
    assert (Hin : "Visualizations" ∈ ({["Visualizations"]} ∪ dirs w : gset string))
      by (apply elem_of_union_l, elem_of_singleton; reflexivity).
    destruct (countplot_bars _ _) as [bs|e]; [|exact Hin].
    cbn zeta.
    pose proof (write_file_dirs "Visualizations/countplot.png"
                  (ImageFile (year_chart bs))
                  (set_pyplot (figure_opened w) (Some (year_chart bs)))) as Hd.
    destruct (write_file _ _ _) as [[[]|e] w3]; unfold world_after;
      cbn [fst snd dirs set_stdout set_pyplot] in *; rewrite Hd; exact Hin.
  - intros Hf. unfold plot_publish_year_count, mbind, M_bind, self, io, os_makedirs.
    cbn [fst snd]. change (String.eqb "Visualizations" "") with false. cbn iota.
    now rewrite bool_decide_eq_true_2.
Qed.

(** X10. On a frame without the column [first_publish_year] (the frame of an
    empty fetch is one) the method raises the ValueError of the count plot
    after it has opened its figure, and never closes it: the figure stays
    matplotlib's current one, no image is written and nothing is printed. *)
Theorem plot_without_year_column (v : BookVisualizer) (w : world) :
  column (vis_df v) "first_publish_year" = None ->
  files w !! "Visualizations" = None ->
  exists w',
    plot_publish_year_count (v, w) =
      (raise ValueError
         "Could not interpret value `first_publish_year` for `x`. An entry with this name does not appear in `data`.",
       (v, w')) /\
    pyplot w' = Some (blank_figure (12, 8)%Z) /\
    files w' = files w /\ stdout w' = stdout w.
Proof.
  intros Hcol Hf. exists (figure_opened w).
  rewrite (plot_publish_year_count_run v w Hf). unfold countplot_bars.
  rewrite Hcol. repeat split; reflexivity.
Qed.








(** ** main: runs that cannot complete *)

Lemma always_raises_bind_l {S A B} (m : M S A) (f : A -> M S B) :
  always_raises m -> always_raises (m ≫= f).
Proof.
  intros H s. destruct (H s) as [e He]. exists e.
  unfold mbind, M_bind. destruct (m s) as [[a|e0] s']; simpl in *; congruence.
Qed.

Lemma always_raises_bind_r {S A B} (m : M S A) (f : A -> M S B) :
  (forall a, always_raises (f a)) -> always_raises (m ≫= f).
Proof.
  intros H s. unfold mbind, M_bind. destruct (m s) as [[a|e0] s'].
  - apply H.
  - now exists e0.
Qed.

Lemma always_raises_call {O A} (o : O) (m : Method O A) :
  (forall w, exists e, fst (m (o, w)) = Raise e) -> always_raises (call o m).
Proof.
  intros H w. destruct (H w) as [e He]. exists e. unfold call.
  destruct (m (o, w)) as [[a|e0] [o' w']]; simpl in *; congruence.
Qed.

Lemma call_return {O A} (o : O) (m : Method O A) w a o' w' :
  m (o, w) = (Return a, (o', w')) -> call o m w = (Return (a, o'), w').
Proof. intros H. unfold call. now rewrite H. Qed.


(** The count plot has no year column to select: the method raises in every
    world. *)
Lemma plot_without_column_raises v :
  column (vis_df v) "first_publish_year" = None ->
  forall w, exists e, fst (plot_publish_year_count (v, w)) = Raise e.
Proof.
  intros Hcol w. destruct (files w !! "Visualizations") as [f|] eqn:Hf.
  - eexists. unfold plot_publish_year_count, mbind, M_bind, self, io, os_makedirs.
    cbn [fst snd]. change (String.eqb "Visualizations" "") with false. cbn iota.
    rewrite Hf. rewrite bool_decide_eq_true_2 by eauto. reflexivity.
  - rewrite (plot_publish_year_count_run v w Hf). unfold countplot_bars.
    rewrite Hcol. eexists. reflexivity.
Qed.

(** X12. When the fetcher returns the empty list (the request failed, or the
    answer listed no book), [main] cannot complete: whatever else the world
    holds, the run ends in an exception, the count plot at the latest having
    no year column to select. *)
Theorem main_fails_when_nothing_fetched (w : world) :
  fst (extract_books (BookFetcher_init API_URL, w)) = Return (PList []) ->
  exists e, fst (main w) = Raise e.
Proof.
  intros H.
  destruct (extract_books (BookFetcher_init API_URL, w)) as [r [f' w']] eqn:He.
  simpl in H. subst r. unfold main.
  rewrite (bind_return _ _ _ _ _ (call_return _ _ _ _ _ _ He)).
  rewrite (bind_return _ _ w' (empty_frame, cleaned_empty) w') by reflexivity.
  clear He. revert w'.
  apply always_raises_bind_r. intros [u1 c1].
  apply always_raises_bind_r. intros [u2 c2].
  apply always_raises_bind_r. intros db.
  apply always_raises_bind_r. intros [u3 db1].
  apply always_raises_bind_r. intros [u4 db2].
  apply always_raises_bind_l, always_raises_call.
  now apply plot_without_column_raises.
Qed.

(** ** main: the configuration error comes late, and before the database *)








(** ** main: a run that completes *)





(** ** main: what a failed fetch does to the exports *)




Lemma BookDatabase_init_world d w : snd (BookDatabase_init d w) = w.
Proof.
  unfold BookDatabase_init, mbind, M_bind, os_getenv, pure, create_engine. simpl.
  destruct (falsy (environ w !! "DB_CONN_URL")); [reflexivity|].
  destruct (drivername _); [|reflexivity].
  now destruct (bool_decide _).
Qed.





(** ** The sink: what its construction depends on *)

(** X16. Constructing the sink reads the environment and the loadable
    drivers, and nothing else: it changes nothing in the world, whether it
    returns or raises, and two worlds with the same environment and the same
    drivers give the same outcome, so no reachable database is needed. *)
Theorem BookDatabase_init_reads_only_configuration (d : DataFrame) (w : world) :
  snd (BookDatabase_init d w) = w /\
  forall w2, environ w2 = environ w -> drivers w2 = drivers w ->
    fst (BookDatabase_init d w2) = fst (BookDatabase_init d w).
Proof.
  split; [apply BookDatabase_init_world|].
  intros w2 He Hd.
  unfold BookDatabase_init, mbind, M_bind, os_getenv, pure, create_engine. simpl.
  rewrite He. destruct (falsy (environ w !! "DB_CONN_URL")); [reflexivity|].
  destruct (drivername _); [|reflexivity].
  rewrite Hd. now destruct (bool_decide _).
Qed.

(** ** The cleaner: input that is not a list of records *)


(** X17. What [clean_data] does with data that is no list.  None, a boolean
    or a number cannot be iterated: a TypeError.  A string or an object is
    iterated, by character or by key, and its first item, a string, has no
    [get]: an AttributeError, unless there is no item at all, in which case
    the result is the frame without columns. *)
Theorem clean_data_on_non_list (data0 : pyval) (w : world) :
  (forall l, data0 <> PList l) ->
  match data0 with
  | PStr EmptyString | PDict [] =>
      fst (clean_data (BookCleaner_init data0, w)) = Return empty_frame
  | PStr _ | PDict _ =>
      fst (clean_data (BookCleaner_init data0, w)) =
        raise AttributeError "'str' object has no attribute 'get'"
  | _ =>
      fst (clean_data (BookCleaner_init data0, w)) =
        raise TypeError ("'" +:+ type_name data0 +:+ "' object is not iterable")
  end.
Proof.
  intros Hl. destruct data0 as [| | | |s|l|d]; try reflexivity.
  - destruct s; reflexivity.
  - now destruct (Hl l).
  - destruct d as [|[k v] d]; reflexivity.
Qed.


End Pipeline.

(** * The properties on concrete inputs *)


Lemma book_AB_raw : raw_record book_AB.
Proof. eexists. split; [reflexivity|]. eexists. reflexivity. Defined.


(** The authors A and B come out as one text, A, B. *)
Lemma author_name_joined_A_B :
  exists df s,
    clean_data (BookCleaner_init (PList [book_AB]), empty_world) = (Return df, s) /\
    column df "author_name" = Some [PStr "A, B"].
Proof.
  destruct (author_name_joined
              [("title", PStr "T2"); ("author_name", PList [PStr "A"; PStr "B"])]
              ["A"; "B"] empty_world (or_introl eq_refl))
    as (df & s & Hrun & Hcol & _).
  exists df, s. split; [exact Hrun | exact Hcol].
Defined.





(** The scenario of the specification: the endpoint cannot be reached, and
    [extract_books] returns the empty list after printing the error. *)
Lemma extract_books_unreachable_endpoint :
  extract_books (BookFetcher_init API_URL, empty_world) =
    (Return (PList []),
     (BookFetcher_init API_URL,
      set_stdout empty_world [inl "Error fetching books: Max retries exceeded"])).
Proof.
  destruct (extract_books_degrades_to_empty (BookFetcher_init API_URL) empty_world)
    as (_ & H & _).
  exact (H (Exn RequestsConnectionError "Max retries exceeded") eq_refl eq_refl).
Defined.

(** A good answer: the two books under [docs] are returned. *)
Example extract_books_two_books :
  fst (extract_books (BookFetcher_init API_URL, two_books_world)) =
    Return (PList [book_T1; book_AB]).
Proof. reflexivity. Qed.

(** A record whose [author_name] is null is no raw record: joining fails. *)
Example clean_data_null_author :
  fst (clean_data (BookCleaner_init (PList [PDict [("author_name", PNone)]]),
                   empty_world)) =
    raise TypeError "can only join an iterable".
Proof. reflexivity. Qed.


(** Without the variable the constructor raises the configuration error. *)
Example BookDatabase_init_unset_variable :
  fst (BookDatabase_init years_frame empty_world) =
    raise ValueError "No connection URL found in environment variables".
Proof. reflexivity. Qed.

(** A query against a database that does not answer: the error is printed and
    the call returns. *)
Lemma query_offline :
  query "SELECT * FROM LibBooks;" (years_sink, offline_world) =
    (Return tt,
     (years_sink,
      set_stdout offline_world
        [inl "Error querying the database: could not connect to server"])).
Proof.
  destruct (query_swallows_errors years_sink "SELECT * FROM LibBooks;" offline_world)
    as (_ & H & _).
  exact (H (Exn OperationalError "could not connect to server") offline_world
           eq_refl eq_refl).
Defined.


(** What [append] would do instead: the rows twice. *)
Example to_sql_append_twice :
  (fun w => length (rows (default empty_frame (tables w !! "LibBooks"))))
    (snd (to_sql years_frame "LibBooks" (engine years_sink) IfAppend
            (snd (to_sql years_frame "LibBooks" (engine years_sink) IfAppend
                    sqlite_world)))) = 6%nat.
Proof. reflexivity. Qed.


(** The CSV file of the two books. *)
Example two_books_csv :
  to_csv plain_format two_books_frame =
    "title,author_name,first_publish_year,ratings" +:+ lineterminator +:+
    "T1,X,2001,5" +:+ lineterminator +:+
    "T2," +:+ quoted "A, B" +:+ ",," +:+ lineterminator.
Proof. reflexivity. Qed.

(** A cell with a bare carriage return is written unquoted and read back as
    two records. *)
Example bare_carriage_return_splits_record :
  tokenize (csv_rows [["a"; String CR "b"]]) = Return [["a"; ""]; ["b"]].
Proof. reflexivity. Qed.

(** No record: no column, and the count plot has nothing to select. *)
Lemma clean_data_no_record :
  fst (clean_data (BookCleaner_init (PList []), empty_world)) = Return empty_frame /\
  column empty_frame "first_publish_year" = None.
Proof.
  destruct (clean_data_empty_input_has_no_columns empty_world) as (H1 & H2 & _).
  split; [exact H1 | exact (H2 "first_publish_year")].
Defined.

(** The whole program on the two books, with a SQLite URL set. *)
Example main_two_books :
  let w := with_environ two_books_world {["DB_CONN_URL" := "sqlite:///books.db"]} in
  fst (main plain_format w) = Return tt /\
  tables (snd (main plain_format w)) !! "LibBooks" = Some two_books_frame /\
  dom (files (snd (main plain_format w))) =
    {["books_cleaned.csv"; "books.json"; "Visualizations/countplot.png"]}.
Proof. split; [reflexivity|]. split; [reflexivity|]. vm_compute. reflexivity. Qed.

(** * The further properties on concrete inputs *)

(** A JSON array as the body: the AttributeError leaves [extract_books]. *)
Lemma extract_books_array_body :
  extract_books (BookFetcher_init API_URL, array_body_world) =
    (raise AttributeError "'list' object has no attribute 'get'",
     (BookFetcher_init API_URL, array_body_world)).
Proof.
  apply (extract_books_non_object_body (BookFetcher_init API_URL)
           array_body_world (ok_response (PList [book_T1])) (PList [book_T1]));
    [reflexivity | simpl; lia | reflexivity | discriminate].
Defined.

(** A decoder that raises a plain ValueError: it is not swallowed. *)
Lemma extract_books_plain_decode_error :
  fst (extract_books (BookFetcher_init API_URL,
                      no_json_world (Exn ValueError "Expecting value"))) =
    Raise (Exn ValueError "Expecting value").
Proof.
  rewrite (extract_books_undecodable_body (BookFetcher_init API_URL)
             (no_json_world (Exn ValueError "Expecting value"))
             {| status_code := 200; reason := "OK"; url := "http://books";
                json_body := Raise (Exn ValueError "Expecting value") |}
             (Exn ValueError "Expecting value"));
    [reflexivity | reflexivity | simpl; lia | reflexivity].
Defined.

(** The decoder error of requests itself is swallowed. *)
Example extract_books_requests_decode_error :
  fst (extract_books (BookFetcher_init API_URL,
                      no_json_world (Exn RequestsJSONDecodeError "Expecting value"))) =
    Return (PList []).
Proof. reflexivity. Qed.

(** A null author: [clean_data] raises and the cleaner is as it was. *)
Lemma clean_data_null_author_changes_nothing :
  exists e,
    clean_data (null_author_cleaner, empty_world) =
      (Raise e, (null_author_cleaner, empty_world)) /\
    (exn_type e = TypeError \/ exn_type e = AttributeError).
Proof.
  eexists. split; [reflexivity|].
  exact (proj2 (clean_data_failure_changes_nothing null_author_cleaner empty_world
                  _ _ eq_refl)).
Defined.

(** The record T1 with an ISBN beside its four fields cleans as T1 does. *)
Lemma clean_data_ignores_isbn :
  fst (clean_data (BookCleaner_init (PList [book_T1_isbn]), empty_world)) =
  fst (clean_data (BookCleaner_init (PList [book_T1]), empty_world)).
Proof.
  apply clean_data_reads_four_keys. repeat constructor.
  eexists _, _. split; [reflexivity|]. split; [reflexivity|].
  intros k Hk. unfold source_keys in Hk.
  repeat (apply elem_of_cons in Hk as [-> | Hk]; [reflexivity|]).
  now apply elem_of_nil in Hk.
Defined.

(** Cleaning the two books a second time, in another world. *)
Lemma clean_data_two_books_again :
  clean_data ({| data := PList [book_T1; book_AB];
                 cleaned_data := Some two_books_frame |}, offline_world) =
    (Return two_books_frame,
     ({| data := PList [book_T1; book_AB];
         cleaned_data := Some two_books_frame |}, offline_world)).
Proof.
  apply (clean_data_again (BookCleaner_init (PList [book_T1; book_AB]))
           _ empty_world empty_world offline_world two_books_frame).
  reflexivity.
Defined.


(** The frame of an empty fetch: the plot raises and its figure stays open. *)
Lemma plot_empty_frame :
  exists w',
    plot_publish_year_count (BookVisualizer_init empty_frame, empty_world) =
      (raise ValueError
         "Could not interpret value `first_publish_year` for `x`. An entry with this name does not appear in `data`.",
       (BookVisualizer_init empty_frame, w')) /\
    pyplot w' = Some (blank_figure (12, 8)%Z).
Proof.
  destruct (plot_without_year_column (BookVisualizer_init empty_frame) empty_world
              eq_refl eq_refl) as (w' & Hrun & Hfig & _).
  exists w'. split; [exact Hrun | exact Hfig].
Defined.


(** The unreachable endpoint: [main] ends in an exception. *)
Lemma main_unreachable_endpoint :
  exists e, fst (main plain_format empty_world) = Raise e.
Proof. apply (main_fails_when_nothing_fetched plain_format empty_world eq_refl). Defined.




(** The sink is built while the database does not answer. *)
Lemma BookDatabase_init_offline :
  fst (BookDatabase_init years_frame
         (with_environ offline_world {["DB_CONN_URL" := "sqlite:///books.db"]})) =
    Return years_sink.
Proof.
  destruct (BookDatabase_init_reads_only_configuration years_frame sqlite_world)
    as (_ & H).
  etransitivity; [|reflexivity].
  apply (H (with_environ offline_world {["DB_CONN_URL" := "sqlite:///books.db"]}));
    reflexivity.
Defined.

(** A null [docs]: [clean_data] cannot iterate it. *)
Lemma clean_data_null_docs :
  fst (clean_data (BookCleaner_init PNone, empty_world)) =
    raise TypeError "'NoneType' object is not iterable".
Proof.
  apply (clean_data_on_non_list PNone empty_world). discriminate.
Defined.

